(** * Workshop-Blockchain: the Box contract, the Hardhat configuration
      and the deployment cost estimator

    A shallow embedding of
    - [contracts/Box.sol] (given in the workshop text),
    - [hardhat.config.js],
    - [scripts/estimate-cost.js],
    followed by the properties stated about them. *)

From Stdlib Require Import ZArith List String Ascii Bool Lia DecimalString.
Import ListNotations.
Local Open Scope string_scope.
Local Open Scope list_scope.
Local Open Scope Z_scope.

(* ================================================================== *)
(** ** The Box contract *)
(* ================================================================== *)

Module Box.

(** [uint256]: an integer in [0, 2^256). *)
Definition uint256 := Z.
Definition MAX_UINT256 : Z := 2 ^ 256 - 1.
Definition is_uint256 (v : Z) : Prop := 0 <= v <= MAX_UINT256.

(** [uint256 private _value;] *)
Record storage := { _value : uint256 }.

(** [event ValueChanged(uint256 value);] *)
Inductive event := ValueChanged (value : uint256).

(** What a call sees and leaves behind: the contract's storage and the
    log of the events emitted so far. *)
Record state := { st : storage; logs : list event }.

(** A call either succeeds with a return value and a new state, or
    reverts with the message of the failed [require]. *)
Inductive outcome (A : Type) :=
| Success (ret : A) (s' : state)
| Revert (reason : string).
Arguments Success {A} ret s'.
Arguments Revert {A} reason.

(** A freshly deployed contract: there is no constructor, so [_value]
    holds the default of its type. *)
Definition deployed : state := {| st := {| _value := 0 |}; logs := [] |}.

(** [function store(uint256 value) public] *)
Definition store (value : uint256) (s : state) : outcome unit :=
  if 0 <? value then
    Success tt {| st := {| _value := value |};
                  logs := logs s ++ [ValueChanged value] |}
  else Revert "Value must be greater than 0".

(** [function retrieve() public view returns (uint256)] *)
Definition retrieve (s : state) : outcome uint256 :=
  Success (_value (st s)) s.

(** The state a transaction leaves on chain: that of the call when it
    succeeds, the one before the call when it reverts. *)
Definition commit {A} (s : state) (o : outcome A) : state :=
  match o with
  | Success _ s' => s'
  | Revert _ => s
  end.

Definition succeeded {A} (o : outcome A) : bool :=
  match o with Success _ _ => true | Revert _ => false end.

Definition returned {A} (o : outcome A) : option A :=
  match o with Success r _ => Some r | Revert _ => None end.

(** The calls a user can send, and the effect of a sequence of them. *)
Inductive call := Store (value : uint256) | Retrieve.

Definition transact (s : state) (c : call) : state :=
  match c with
  | Store v => commit s (store v s)
  | Retrieve => commit s (retrieve s)
  end.

Definition run (cs : list call) (s : state) : state :=
  fold_left transact cs s.

(** The argument of the last [store] call of [cs] that was accepted,
    [dflt] when there is none. *)
Fixpoint last_stored (cs : list call) (dflt : uint256) : uint256 :=
  match cs with
  | [] => dflt
  | Store v :: cs' => last_stored cs' (if 0 <? v then v else dflt)
  | Retrieve :: cs' => last_stored cs' dflt
  end.

End Box.

(* ================================================================== *)
(** ** JavaScript values used by the scripts *)
(* ================================================================== *)

(** A [bigint] is an integer of arbitrary size. *)
Definition bigint := Z.

(** The values a fee field can hold: a bigint, or [null] when the node
    gave none. *)
Inductive value :=
| BigInt (n : bigint)
| Null.

(** What a [throw] or a rejected promise carries. *)
Inductive error :=
| ModuleNotFound (path : string)   (* [require] of a file that is not there *)
| SyntaxError (path : string)      (* [require] of a file that is not JSON *)
| TypeError (message : string)
| NumericFault (message : string)  (* a number outside the toolkit's range *)
| InvalidConfig (path : string)    (* a configuration entry of the wrong type *)
| UnknownNetwork (name : string)   (* a network name with no profile *)
| Rejected (message : string).     (* a failure reported by the node or the toolkit *)

Inductive result (A : Type) :=
| Ok (a : A)
| Throw (e : error).
Arguments Ok {A} a.
Arguments Throw {A} e.

(** [a * b] where [a] is a bigint: exact on two bigints, a [TypeError]
    when [b] is [null]. *)
Definition mul (a : bigint) (b : value) : result bigint :=
  match b with
  | BigInt n => Ok (a * n)
  | Null => Throw (TypeError "Cannot mix BigInt and other types, use explicit conversions")
  end.

(** [n.toString()] on a bigint: its decimal digits, with a leading [-]
    when negative. *)
Definition bigint_toString (n : bigint) : string :=
  NilZero.string_of_int (Z.to_int n).

(* ================================================================== *)
(** ** Display-scale conversion: [formatUnits] and [formatEther] *)
(* ================================================================== *)

(** The two formatting functions the script calls belong to the ethers
    library (version 6, [utils/units.ts] and [utils/fixednumber.ts]),
    which the repository uses as a dependency; they are transcribed here
    as that library defines them. *)

Module Units.

(** The unit names, in the order of the library's table; a unit has three
    decimals more than the one before it. *)
Inductive unit_name := wei | kwei | mwei | gwei | szabo | finney | ether.

Definition index (u : unit_name) : nat :=
  match u with
  | wei => 0 | kwei => 1 | mwei => 2 | gwei => 3
  | szabo => 4 | finney => 5 | ether => 6
  end%nat.

Definition decimals (u : unit_name) : nat := 3 * index u.

Fixpoint zeros (n : nat) : string :=
  match n with
  | O => EmptyString
  | S n' => String "0" (zeros n')
  end.

(** Zeros in front of [str] until it is longer than [decimals]. *)
Definition pad (decimals : nat) (str : string) : string :=
  (zeros (S decimals - String.length str) ++ str)%string.

(** [s] without its leading zeros, but for the last character. *)
Fixpoint trim_whole (s : string) : string :=
  match s with
  | String "0" (String _ _ as rest) => trim_whole rest
  | _ => s
  end.

(** [s] without the zeros it ends with. *)
Fixpoint strip_trailing_zeros (s : string) : string :=
  match s with
  | EmptyString => EmptyString
  | String c r =>
      match strip_trailing_zeros r with
      | EmptyString => if Ascii.eqb c "0" then EmptyString else String c EmptyString
      | r' => String c r'
      end
  end.

(** [s] without its trailing zeros, but for the first character. *)
Definition trim_decimal (s : string) : string :=
  match s with
  | EmptyString => EmptyString
  | String c r => String c (strip_trailing_zeros r)
  end.

(** The decimal text of the fixed-point number [val / 10^decimals]: at
    least one digit on each side of the point. *)
Definition toString (val : bigint) (decimals : nat) : string :=
  let negative := if val <? 0 then "-" else "" in
  let str := bigint_toString (Z.abs val) in
  match decimals with
  | O => (negative ++ str)%string
  | _ =>
      let str := pad decimals str in
      let index := (String.length str - decimals)%nat in
      let whole := trim_whole (substring 0 index str) in
      let decimal := trim_decimal (substring index decimals str) in
      (negative ++ whole ++ "." ++ decimal)%string
  end.

(** The fixed-point format of the conversions is 512 bits wide, signed. *)
Definition width : Z := 512.

Definition in_range (v : bigint) : bool :=
  (- 2 ^ (width - 1) <=? v) && (v <? 2 ^ (width - 1)).

Definition fromValue (v : value) (decimals : nat) : result string :=
  match v with
  | Null => Throw (TypeError "invalid BigNumberish value")
  | BigInt n =>
      if in_range n then Ok (toString n decimals)
      else Throw (NumericFault "overflow")
  end.

(** [formatUnits(value, unit)] for a unit name. *)
Definition formatUnits (v : value) (u : unit_name) : result string :=
  fromValue v (decimals u).

(** [formatEther(wei)]: [formatUnits] at 18 decimals. *)
Definition formatEther (wei : value) : result string :=
  fromValue wei 18.

End Units.

(* ================================================================== *)
(** ** hardhat.config.js *)
(* ================================================================== *)

Module Config.

#[local] Set Warnings "-register-all".

Inductive json :=
| JNull
| JBool (b : bool)
| JNumber (literal : string)
| JString (s : string)
| JArray (items : list json)
| JObject (members : list (string * json)).

(** What [require] finds at a [.json] path: no file, a file whose text
    is not JSON, or a file and the value it parses to. *)
Inductive file :=
| Missing
| Malformed
| Parsed (content : json).

(** [require(path)] for a JSON file. *)
Definition require_json (path : string) (f : file) : result json :=
  match f with
  | Missing => Throw (ModuleNotFound path)
  | Malformed => Throw (SyntaxError path)
  | Parsed j => Ok j
  end.

(** The member [key] of a parsed object; of repeated keys the last one
    counts. *)
Fixpoint member (key : string) (ms : list (string * json)) : option json :=
  match ms with
  | [] => None
  | (k, v) :: ms' =>
      match member key ms' with
      | Some v' => Some v'
      | None => if String.eqb k key then Some v else None
      end
  end.

(** [j.key]; [None] stands for [undefined]. *)
Definition property (j : json) (key : string) : option json :=
  match j with
  | JObject ms => member key ms
  | _ => None
  end.

(** [const {alchemyApiKey, mnemonic} = j]. *)
Definition destructure (j : json) : result (option json * option json) :=
  match j with
  | JNull => Throw (TypeError "Cannot destructure 'null'")
  | _ => Ok (property j "alchemyApiKey", property j "mnemonic")
  end.

(** A template literal with one hole: [`text${hole}`]. *)
Record template := { text : string; hole : option json }.

Record accounts_config := { mnemonic : option json }.
Record network_config := { url : template; accounts : accounts_config }.
Record HardhatUserConfig := {
  solidity : string;
  networks : list (string * network_config)
}.

(** The module body: what loading [hardhat.config.js] evaluates to. *)
Definition load (secrets : file) : result HardhatUserConfig :=
  match require_json "./secrets.json" secrets with
  | Throw e => Throw e
  | Ok j =>
      match destructure j with
      | Throw e => Throw e
      | Ok (alchemyApiKey, mnemonic) =>
          Ok {| solidity := "0.8.28";
                networks :=
                  [("sepolia",
                    {| url := {| text := "https://eth-sepolia.g.alchemy.com/v2/";
                                 hole := alchemyApiKey |};
                       accounts := {| mnemonic := mnemonic |} |})] |}
      end
  end.

End Config.

(* ================================================================== *)
(** ** scripts/estimate-cost.js *)
(* ================================================================== *)

Module Script.

(** The toolkit objects the script handles. *)
Record ContractFactory := { bytecode : string }.
Record transaction := { data : string }.
Record FeeData := {
  gasPrice : value;
  maxFeePerGas : value;
  maxPriorityFeePerGas : value
}.

(** A promise the script hands on without awaiting it. *)
Inductive promise (A : Type) := resolving (a : A).
Arguments resolving {A} a.

(** [Box.getDeployTransaction()]: a promise of the deployment intent,
    the compiled code with no constructor argument.  The script passes
    it to [estimateGas] as it is. *)
Definition getDeployTransaction (f : ContractFactory) : promise transaction :=
  resolving {| data := bytecode f |}.

(** [hre.ethers.provider]: the node behind the selected network, as the
    answers it gives to the two requests of the script. *)
Record Provider := {
  estimateGas : promise transaction -> result bigint;
  getFeeData : result FeeData
}.

(** [hre.ethers]: the provider of the selected network, the factory
    lookup and the two formatting functions. *)
Record Ethers := {
  provider : Provider;
  getContractFactory : string -> result ContractFactory;
  formatUnits : value -> Units.unit_name -> result string;
  formatEther : value -> result string
}.

(** The [hre.ethers] of the ethers library, over a node and a set of
    compiled contracts. *)
Definition toolkit (p : Provider)
    (factories : string -> result ContractFactory) : Ethers :=
  {| provider := p;
     getContractFactory := factories;
     formatUnits := Units.formatUnits;
     formatEther := Units.formatEther |}.

(** What a run does that can be seen from outside, in order. *)
Inductive request :=
| GetContractFactory (name : string)
| EstimateGas (tx : promise transaction)
| GetFeeData.

Inductive event :=
| Await (r : request)      (* a call to the toolkit or the node *)
| Stdout (line : string)   (* [console.log] *)
| Stderr (e : error)       (* [console.error] *)
| Exit (code : Z).         (* [process.exit] *)

Definition trace := list event.

(** An [async] computation: it extends the trace and either returns a
    value or throws. *)
Definition M (A : Type) : Type := trace -> result A * trace.

Definition ret {A} (a : A) : M A := fun t => (Ok a, t).

Definition bind {A B} (m : M A) (k : A -> M B) : M B :=
  fun t =>
    match m t with
    | (Ok a, t') => k a t'
    | (Throw e, t') => (Throw e, t')
    end.

Notation "x <- m ;; k" := (bind m (fun x => k))
  (at level 61, m at next level, right associativity).
Notation "m ;; k" := (bind m (fun _ => k))
  (at level 61, right associativity).

(** [await] of a call whose answer is [answer]. *)
Definition await {A} (r : request) (answer : result A) : M A :=
  fun t => (answer, t ++ [Await r]).

(** An expression that may throw. *)
Definition eval {A} (r : result A) : M A := fun t => (r, t).

Definition console_log (line : string) : M unit :=
  fun t => (Ok tt, t ++ [Stdout line]).

(** [async function main()]. *)
Definition main (ethers : Ethers) : M unit :=
  let provider := provider ethers in
  Box <- await (GetContractFactory "Box") (getContractFactory ethers "Box") ;;
  let tx := getDeployTransaction Box in
  estimatedGas <- await (EstimateGas tx) (estimateGas provider tx) ;;
  console_log ("Estimated gas: " ++ bigint_toString estimatedGas) ;;
  feeData <- await GetFeeData (getFeeData provider) ;;
  let gasPrice := gasPrice feeData in
  price <- eval (formatUnits ethers gasPrice Units.gwei) ;;
  console_log ("Current gas price: " ++ price ++ " gwei") ;;
  totalCost <- eval (mul estimatedGas gasPrice) ;;
  cost <- eval (formatEther ethers (BigInt totalCost)) ;;
  console_log ("Estimated deployment cost: " ++ cost ++ " ETH").

(** [main().then(() => process.exit(0)).catch(...)]. *)
Definition toplevel (ethers : Ethers) : trace :=
  match main ethers [] with
  | (Ok _, t) => t ++ [Exit 0]
  | (Throw error, t) => t ++ [Stderr error; Exit 1]
  end.

(** Observations on a trace. *)
Fixpoint exit_code (t : trace) : option Z :=
  match t with
  | [] => None
  | Exit c :: _ => Some c
  | _ :: t' => exit_code t'
  end.

Fixpoint stdout (t : trace) : list string :=
  match t with
  | [] => []
  | Stdout l :: t' => l :: stdout t'
  | _ :: t' => stdout t'
  end.

Fixpoint stderr (t : trace) : list error :=
  match t with
  | [] => []
  | Stderr e :: t' => e :: stderr t'
  | _ :: t' => stderr t'
  end.

Fixpoint requests (t : trace) : list request :=
  match t with
  | [] => []
  | Await r :: t' => r :: requests t'
  | _ :: t' => requests t'
  end.

End Script.

(** One run of [main], given the answers in the context. *)
Ltac run_main :=
  cbv beta iota zeta delta
    [Script.toplevel Script.main Script.bind Script.await Script.eval
     Script.console_log];
  repeat match goal with
         | H : ?x = _ |- context [?x] => rewrite H; cbv beta iota
         end;
  rewrite <- ?app_assoc.

(* ================================================================== *)
(** ** Running a script under the task runner *)
(* ================================================================== *)

Module Hardhat.

Import Script.

(** The networks that need no profile in the configuration. *)
Definition builtin_networks : list string := ["hardhat"; "localhost"].

Definition network_known (cfg : Config.HardhatUserConfig) (name : string) : bool :=
  existsb (String.eqb name) (builtin_networks ++ map fst (Config.networks cfg)).

(** The runtime checks the types of the exported configuration.  The
    [url] of a profile, a template literal, is always a string; its
    [accounts], given as [{mnemonic: ...}], are accepted when the
    mnemonic is a string. *)
Definition valid_profile (net : Config.network_config) : bool :=
  match Config.mnemonic (Config.accounts net) with
  | Some (Config.JString _) => true
  | _ => false
  end.

(** The first declared network whose profile is refused. *)
Fixpoint first_invalid (nets : list (string * Config.network_config))
  : option string :=
  match nets with
  | [] => None
  | (name, net) :: nets' =>
      if valid_profile net then first_invalid nets' else Some name
  end.

Definition validate (cfg : Config.HardhatUserConfig) : result unit :=
  match first_invalid (Config.networks cfg) with
  | Some name => Throw (InvalidConfig ("HardhatConfig.networks." ++ name))
  | None => Ok tt
  end.

(** [npx hardhat run --network name script], and [require("hardhat")] in
    the script: the runtime (the Hardhat package, a dependency) first
    evaluates the configuration module, then checks the exported
    configuration, then looks the network name up, and only then is the
    script's body run against the node of that network.  An error before
    the body is reported on the error stream and ends the process with
    status 1. *)
Definition run (secrets : Config.file) (network : string)
    (nodes : string -> Ethers) (body : Ethers -> trace) : trace :=
  match Config.load secrets with
  | Throw e => [Stderr e; Exit 1]
  | Ok cfg =>
      match validate cfg with
      | Throw e => [Stderr e; Exit 1]
      | Ok _ =>
          if network_known cfg network then body (nodes network)
          else [Stderr (UnknownNetwork network); Exit 1]
      end
  end.

(** [npx hardhat run --network name scripts/estimate-cost.js]. *)
Definition estimate_cost (secrets : Config.file) (network : string)
    (nodes : string -> Ethers) : trace :=
  run secrets network nodes toplevel.

End Hardhat.

(* ================================================================== *)
(** ** Stand-ins for the node and the compiled contract *)
(* ================================================================== *)

Module Fixtures.

Import Script.

Definition box_factory : ContractFactory := {| bytecode := "0x6080604052" |}.

(** Only [Box] has been compiled. *)
Definition factories (name : string) : result ContractFactory :=
  if String.eqb name "Box" then Ok box_factory
  else Throw (Rejected "artifact not found").

Definition legacy_fees (P : value) : FeeData :=
  {| gasPrice := P; maxFeePerGas := Null; maxPriorityFeePerGas := Null |}.

(** A node that estimates [G] units at a price of [P]. *)
Definition node (G : bigint) (P : value) : Provider :=
  {| estimateGas := fun _ => Ok G;
     getFeeData := Ok (legacy_fees P) |}.

(** A node on which the simulated deployment reverts. *)
Definition reverting_node (P : value) : Provider :=
  {| estimateGas := fun _ => Throw (Rejected "execution reverted");
     getFeeData := Ok (legacy_fees P) |}.

(** A node that estimates [G] units, then fails to report its fees. *)
Definition feeless_node (G : bigint) : Provider :=
  {| estimateGas := fun _ => Ok G;
     getFeeData := Throw (Rejected "could not fetch fee data") |}.

(** One more than the largest integer a double holds safely, 2^53 - 1. *)
Definition beyond_safe : bigint := 2 ^ 53 + 1.

End Fixtures.

(* ================================================================== *)
(** ** Histories of calls to the Box contract *)
(* ================================================================== *)

Module BoxHistory.

Import Box.

(** The arguments of the [store] calls of [cs] that pass the [require],
    in order. *)
Fixpoint accepted (cs : list call) : list uint256 :=
  match cs with
  | [] => []
  | Store v :: cs' => if 0 <? v then v :: accepted cs' else accepted cs'
  | Retrieve :: cs' => accepted cs'
  end.

(** The calls of [cs] that change the state. *)
Definition changes_state (c : call) : bool :=
  match c with
  | Store v => 0 <? v
  | Retrieve => false
  end.

Definition effective (cs : list call) : list call := filter changes_state cs.

Definition event_value (e : event) : uint256 :=
  match e with ValueChanged v => v end.

(** The value of the last event of a log, [dflt] for an empty log. *)
Definition last_logged (l : list event) (dflt : uint256) : uint256 :=
  last (map event_value l) dflt.

(** A call whose argument fits its parameter type. *)
Definition well_typed (c : call) : Prop :=
  match c with
  | Store v => is_uint256 v
  | Retrieve => True
  end.

End BoxHistory.

(* ================================================================== *)
(** ** scripts/deploy.js *)
(* ================================================================== *)

Module Deploy.

(** The handle of a contract being deployed. *)
Record BaseContract := { deployment : string }.

(** The toolkit as the deployment script uses it: the factory lookup,
    [Box.deploy()], [box.waitForDeployment()] and [box.getAddress()]. *)
Record Ethers := {
  getContractFactory : string -> result Script.ContractFactory;
  deploy : Script.ContractFactory -> result BaseContract;
  waitForDeployment : BaseContract -> result BaseContract;
  getAddress : BaseContract -> result string
}.

Inductive request :=
| GetContractFactory (name : string)
| SendDeployment (f : Script.ContractFactory)
| WaitForDeployment (c : BaseContract)
| GetAddress (c : BaseContract).

Inductive event :=
| Await (r : request)
| Stdout (line : string)
| Stderr (e : error)
| Exit (code : Z).

Definition trace := list event.

Definition M (A : Type) : Type := trace -> result A * trace.

Definition bind {A B} (m : M A) (k : A -> M B) : M B :=
  fun t =>
    match m t with
    | (Ok a, t') => k a t'
    | (Throw e, t') => (Throw e, t')
    end.

Notation "x <- m ;; k" := (bind m (fun x => k))
  (at level 61, m at next level, right associativity).
Notation "m ;; k" := (bind m (fun _ => k))
  (at level 61, right associativity).

Definition await {A} (r : request) (answer : result A) : M A :=
  fun t => (answer, t ++ [Await r]).

Definition console_log (line : string) : M unit :=
  fun t => (Ok tt, t ++ [Stdout line]).

(** [async function main ()]. *)
Definition main (ethers : Ethers) : M unit :=
  Box <- await (GetContractFactory "Box") (getContractFactory ethers "Box") ;;
  console_log "Deploying Box..." ;;
  box <- await (SendDeployment Box) (deploy ethers Box) ;;
  await (WaitForDeployment box) (waitForDeployment ethers box) ;;
  address <- await (GetAddress box) (getAddress ethers box) ;;
  console_log ("Box deployed to: " ++ address).

(** [main().then(() => process.exit(0)).catch(...)]. *)
Definition toplevel (ethers : Ethers) : trace :=
  match main ethers [] with
  | (Ok _, t) => t ++ [Exit 0]
  | (Throw error, t) => t ++ [Stderr error; Exit 1]
  end.

Fixpoint exit_code (t : trace) : option Z :=
  match t with
  | [] => None
  | Exit c :: _ => Some c
  | _ :: t' => exit_code t'
  end.

Fixpoint stdout (t : trace) : list string :=
  match t with
  | [] => []
  | Stdout l :: t' => l :: stdout t'
  | _ :: t' => stdout t'
  end.

Fixpoint stderr (t : trace) : list error :=
  match t with
  | [] => []
  | Stderr e :: t' => e :: stderr t'
  | _ :: t' => stderr t'
  end.

Fixpoint requests (t : trace) : list request :=
  match t with
  | [] => []
  | Await r :: t' => r :: requests t'
  | _ :: t' => requests t'
  end.

Definition is_deployment (r : request) : bool :=
  match r with SendDeployment _ => true | _ => false end.

End Deploy.

(** One run of the deployment script, given the answers in the context. *)
Ltac run_deploy :=
  cbv beta iota zeta delta
    [Deploy.toplevel Deploy.main Deploy.bind Deploy.await Deploy.console_log];
  repeat match goal with
         | H : ?x = _ |- context [?x] => rewrite H; cbv beta iota
         end;
  rewrite <- ?app_assoc.

(** Every way a run of the estimator can go, by the answers it gets. *)
Ltac estimator_cases ethers :=
  let Box := fresh "Box" in
  let G := fresh "G" in
  let fee := fresh "fee" in
  let price := fresh "price" in
  let total := fresh "total" in
  let cost := fresh "cost" in
  let e := fresh "e" in
  destruct (Script.getContractFactory ethers "Box") as [Box | e] eqn:?;
    [ destruct (Script.estimateGas (Script.provider ethers)
                  (Script.getDeployTransaction Box)) as [G | e] eqn:?;
      [ destruct (Script.getFeeData (Script.provider ethers))
          as [fee | e] eqn:?;
        [ destruct (Script.formatUnits ethers (Script.gasPrice fee) Units.gwei)
            as [price | e] eqn:?;
          [ destruct (mul G (Script.gasPrice fee)) as [total | e] eqn:?;
            [ destruct (Script.formatEther ethers (BigInt total))
                as [cost | e] eqn:? | ] | ] | ] | ] | ];
  run_main.

(** Every way a run of the deployment script can go. *)
Ltac deploy_cases ethers :=
  let Box := fresh "Box" in
  let box := fresh "box" in
  let box' := fresh "box'" in
  let address := fresh "address" in
  let e := fresh "e" in
  destruct (Deploy.getContractFactory ethers "Box") as [Box | e] eqn:?;
    [ destruct (Deploy.deploy ethers Box) as [box | e] eqn:?;
      [ destruct (Deploy.waitForDeployment ethers box) as [box' | e] eqn:?;
        [ destruct (Deploy.getAddress ethers box) as [address | e] eqn:? | ]
      | ] | ];
  run_deploy.

(* ================================================================== *)
(** ** Stand-ins for the deployment *)
(* ================================================================== *)

Module DeployFixtures.

Definition box_handle : Deploy.BaseContract :=
  {| Deploy.deployment := "0x5fbdb2315678afecb367f032d93f642f64180aa3" |}.

(** A node that includes the deployment and reports its address. *)
Definition local_node : Deploy.Ethers :=
  {| Deploy.getContractFactory := Fixtures.factories;
     Deploy.deploy := fun _ => Ok box_handle;
     Deploy.waitForDeployment := fun c => Ok c;
     Deploy.getAddress := fun c => Ok (Deploy.deployment c) |}.

(** A project in which nothing has been compiled. *)
Definition no_artifacts (name : string) : result Script.ContractFactory :=
  Throw (Rejected "artifact not found").

Definition uncompiled : Deploy.Ethers :=
  {| Deploy.getContractFactory := no_artifacts;
     Deploy.deploy := fun _ => Ok box_handle;
     Deploy.waitForDeployment := fun c => Ok c;
     Deploy.getAddress := fun c => Ok (Deploy.deployment c) |}.

(** A node that accepts the deployment but never reports its inclusion. *)
Definition stalled_node : Deploy.Ethers :=
  {| Deploy.getContractFactory := Fixtures.factories;
     Deploy.deploy := fun _ => Ok box_handle;
     Deploy.waitForDeployment := fun _ => Throw (Rejected "transaction dropped");
     Deploy.getAddress := fun c => Ok (Deploy.deployment c) |}.

(** A node whose account cannot pay for the deployment. *)
Definition broke_node : Deploy.Ethers :=
  {| Deploy.getContractFactory := Fixtures.factories;
     Deploy.deploy := fun _ => Throw (Rejected "insufficient funds");
     Deploy.waitForDeployment := fun c => Ok c;
     Deploy.getAddress := fun c => Ok (Deploy.deployment c) |}.

(** Fee data with and without the fee-market fields. *)
Definition market_fees (P : value) : Script.FeeData :=
  {| Script.gasPrice := P;
     Script.maxFeePerGas := BigInt 30000000000;
     Script.maxPriorityFeePerGas := BigInt 1000000000 |}.

End DeployFixtures.

(* ================================================================== *)
(** ** What the calls of the estimator answer *)
(* ================================================================== *)

Module Answers.

Import Script.

(** The error of the first operation of the estimator, in program order,
    that throws: the factory lookup, the gas estimation, the fee fetch,
    the display of the price, the product, the display of the cost.
    [None] when all of them answer. *)
Definition first_error (ethers : Ethers) : option error :=
  match getContractFactory ethers "Box" with
  | Throw e => Some e
  | Ok Box =>
      match estimateGas (provider ethers) (getDeployTransaction Box) with
      | Throw e => Some e
      | Ok G =>
          match getFeeData (provider ethers) with
          | Throw e => Some e
          | Ok fee =>
              match formatUnits ethers (gasPrice fee) Units.gwei with
              | Throw e => Some e
              | Ok _ =>
                  match mul G (gasPrice fee) with
                  | Throw e => Some e
                  | Ok total =>
                      match formatEther ethers (BigInt total) with
                      | Throw e => Some e
                      | Ok _ => None
                      end
                  end
              end
          end
      end
  end.

(** Credentials as the workshop has them written. *)
Definition workshop_secrets : Config.json :=
  Config.JObject
    [("mnemonic", Config.JString "test test test test test test test test test test test junk");
     ("alchemyApiKey", Config.JString "key")].

(** Credentials without the seed phrase. *)
Definition keyless_secrets : Config.json :=
  Config.JObject [("alchemyApiKey", Config.JString "key")].

End Answers.

(* ================================================================== *)
(** * Properties of the estimator *)
(* ================================================================== *)

Import Script.

(** ** The cost computation *)

(** A run in which every call answers and every value can be displayed. *)
Lemma toplevel_completes (ethers : Ethers) (Box : ContractFactory)
    (G total : bigint) (fee : FeeData) (price cost : string) :
  getContractFactory ethers "Box" = Ok Box ->
  estimateGas (provider ethers) (getDeployTransaction Box) = Ok G ->
  getFeeData (provider ethers) = Ok fee ->
  formatUnits ethers (gasPrice fee) Units.gwei = Ok price ->
  mul G (gasPrice fee) = Ok total ->
  formatEther ethers (BigInt total) = Ok cost ->
  toplevel ethers =
    [Await (GetContractFactory "Box");
     Await (EstimateGas (getDeployTransaction Box));
     Stdout ("Estimated gas: " ++ bigint_toString G);
     Await GetFeeData;
     Stdout ("Current gas price: " ++ price ++ " gwei");
     Stdout ("Estimated deployment cost: " ++ cost ++ " ETH");
     Exit 0].
Proof.
  intros HF HG HD HP HM HC. run_main. reflexivity.
Qed.

(** C1: for non-negative integers G (gas estimate) and P (unit price),
    the total the estimator computes is G * P over the integers, with no
    rounding, whatever the size of G and P; the cost line it prints is
    the display of that product. *)
Theorem total_cost_exact (ethers : Ethers) (Box : ContractFactory)
    (G P : Z) (fee : FeeData) (price cost : string) :
  0 <= G -> 0 <= P ->
  getContractFactory ethers "Box" = Ok Box ->
  estimateGas (provider ethers) (getDeployTransaction Box) = Ok G ->
  getFeeData (provider ethers) = Ok fee ->
  gasPrice fee = BigInt P ->
  formatUnits ethers (BigInt P) Units.gwei = Ok price ->
  formatEther ethers (BigInt (G * P)) = Ok cost ->
  mul G (gasPrice fee) = Ok (G * P) /\
  stdout (toplevel ethers) =
    ["Estimated gas: " ++ bigint_toString G;
     "Current gas price: " ++ price ++ " gwei";
     "Estimated deployment cost: " ++ cost ++ " ETH"]%string /\
  exit_code (toplevel ethers) = Some 0.
Proof.
  intros _ _ HF HG HD HP Hprice Hcost.
  assert (HM : mul G (gasPrice fee) = Ok (G * P)) by (rewrite HP; reflexivity).
  split; [exact HM |].
  rewrite <- HP in Hprice.
  rewrite (toplevel_completes ethers Box G (G * P) fee price cost
             HF HG HD Hprice HM Hcost).
  split; reflexivity.
Qed.

Lemma total_cost_exact_witness :
  0 <= Fixtures.beyond_safe /\
  2 ^ 53 - 1 < Fixtures.beyond_safe /\
  mul Fixtures.beyond_safe (BigInt Fixtures.beyond_safe)
    = Ok 81129638414606699710187514626049 /\
  stdout (toplevel (toolkit (Fixtures.node Fixtures.beyond_safe
                                           (BigInt Fixtures.beyond_safe))
                            Fixtures.factories)) =
    ["Estimated gas: 9007199254740993";
     "Current gas price: 9007199.254740993 gwei";
     "Estimated deployment cost: 81129638414606.699710187514626049 ETH"]%string.
Proof.
  assert (Hpos : 0 <= Fixtures.beyond_safe) by (vm_compute; discriminate).
  destruct (total_cost_exact
              (toolkit (Fixtures.node Fixtures.beyond_safe
                                      (BigInt Fixtures.beyond_safe))
                       Fixtures.factories)
              Fixtures.box_factory Fixtures.beyond_safe Fixtures.beyond_safe
              (Fixtures.legacy_fees (BigInt Fixtures.beyond_safe))
              "9007199.254740993" "81129638414606.699710187514626049"
              Hpos Hpos eq_refl eq_refl eq_refl eq_refl eq_refl eq_refl)
    as (Hmul & Hout & _).
  split; [exact Hpos |].
  split; [reflexivity |].
  split; [exact Hmul |].
  rewrite Hout. reflexivity.
Defined.

(** ** Failures *)

(** C3: when the gas estimation is rejected, the run asks for no fee
    data, prints nothing on the output, reports the rejection on the
    error stream and exits with status 1. *)
Theorem estimation_failure_aborts (ethers : Ethers) (Box : ContractFactory)
    (e : error) :
  getContractFactory ethers "Box" = Ok Box ->
  estimateGas (provider ethers) (getDeployTransaction Box) = Throw e ->
  ~ In GetFeeData (requests (toplevel ethers)) /\
  stdout (toplevel ethers) = [] /\
  stderr (toplevel ethers) = [e] /\
  exit_code (toplevel ethers) = Some 1.
Proof.
  intros HF HG. run_main.
  repeat split; try reflexivity.
  intros [H | [H | []]]; discriminate H.
Qed.

Lemma estimation_failure_aborts_witness :
  ~ In GetFeeData
      (requests (toplevel (toolkit (Fixtures.reverting_node (BigInt 20000000000))
                                   Fixtures.factories))) /\
  stdout (toplevel (toolkit (Fixtures.reverting_node (BigInt 20000000000))
                            Fixtures.factories)) = [] /\
  stderr (toplevel (toolkit (Fixtures.reverting_node (BigInt 20000000000))
                            Fixtures.factories))
    = [Rejected "execution reverted"] /\
  exit_code (toplevel (toolkit (Fixtures.reverting_node (BigInt 20000000000))
                               Fixtures.factories)) = Some 1.
Proof.
  exact (estimation_failure_aborts
           (toolkit (Fixtures.reverting_node (BigInt 20000000000))
                    Fixtures.factories)
           Fixtures.box_factory (Rejected "execution reverted")
           eq_refl eq_refl).
Defined.

(** C4: when the fee data cannot be fetched after a successful
    estimation, only the gas line has been printed: no cost line is
    printed for any amount, the fee request is made once, the failure is
    reported and the run exits with status 1. *)
Theorem fee_failure_aborts (ethers : Ethers) (Box : ContractFactory)
    (G : bigint) (e : error) :
  getContractFactory ethers "Box" = Ok Box ->
  estimateGas (provider ethers) (getDeployTransaction Box) = Ok G ->
  getFeeData (provider ethers) = Throw e ->
  stdout (toplevel ethers) = ["Estimated gas: " ++ bigint_toString G]%string /\
  (forall cost : string,
     ~ In ("Estimated deployment cost: " ++ cost ++ " ETH")%string
          (stdout (toplevel ethers))) /\
  requests (toplevel ethers) =
    [GetContractFactory "Box"; EstimateGas (getDeployTransaction Box);
     GetFeeData] /\
  stderr (toplevel ethers) = [e] /\
  exit_code (toplevel ethers) = Some 1.
Proof.
  intros HF HG HD. run_main.
  repeat split; try reflexivity.
  intros cost [H | []]. cbn in H. discriminate H.
Qed.

Lemma fee_failure_aborts_witness :
  stdout (toplevel (toolkit (Fixtures.feeless_node 500000) Fixtures.factories))
    = ["Estimated gas: 500000"]%string /\
  stderr (toplevel (toolkit (Fixtures.feeless_node 500000) Fixtures.factories))
    = [Rejected "could not fetch fee data"] /\
  exit_code (toplevel (toolkit (Fixtures.feeless_node 500000) Fixtures.factories))
    = Some 1.
Proof.
  destruct (fee_failure_aborts
              (toolkit (Fixtures.feeless_node 500000) Fixtures.factories)
              Fixtures.box_factory 500000 (Rejected "could not fetch fee data")
              eq_refl eq_refl eq_refl)
    as (Hout & _ & _ & Herr & Hexit).
  repeat split; assumption.
Defined.

(** A [null] price from the node is refused by the formatting of the
    price line: nothing is multiplied and no cost line is printed. *)
Lemma null_price_aborts (p : Provider) (f : string -> result ContractFactory)
    (Box : ContractFactory) (G : bigint) (fee : FeeData) :
  f "Box" = Ok Box ->
  estimateGas p (getDeployTransaction Box) = Ok G ->
  getFeeData p = Ok fee ->
  gasPrice fee = Null ->
  stdout (toplevel (toolkit p f)) = ["Estimated gas: " ++ bigint_toString G]%string /\
  exit_code (toplevel (toolkit p f)) = Some 1.
Proof.
  intros HF HG HD HN.
  cbv beta iota zeta delta [toplevel main bind await eval console_log toolkit
                            provider getContractFactory formatUnits].
  rewrite HF. cbv beta iota. rewrite HG. cbv beta iota. rewrite HD.
  cbv beta iota. rewrite HN. split; reflexivity.
Qed.

(** C7: a run exits with status 0 and an empty error stream when [main]
    completes, and with status 1 and exactly the thrown error on the
    error stream when [main] throws; the trace is that of [main]
    followed by the exit, and no request is made twice.  [main] throws
    exactly when one of its operations does, and then with the error of
    the first that does, unchanged: so the status is 1 whenever the
    factory lookup, the estimation, the fee fetch, a display or the
    product fails, and 0 when all of them answer. *)
Theorem exit_status_uniform (ethers : Ethers) :
  match main ethers [] with
  | (Ok _, t) =>
      toplevel ethers = t ++ [Exit 0] /\
      exit_code (toplevel ethers) = Some 0 /\
      stderr (toplevel ethers) = []
  | (Throw e, t) =>
      toplevel ethers = t ++ [Stderr e; Exit 1] /\
      exit_code (toplevel ethers) = Some 1 /\
      stderr (toplevel ethers) = [e]
  end /\
  NoDup (requests (toplevel ethers)) /\
  fst (main ethers []) =
    match Answers.first_error ethers with
    | None => Ok tt
    | Some e => Throw e
    end /\
  exit_code (toplevel ethers) =
    Some (match Answers.first_error ethers with None => 0 | Some _ => 1 end) /\
  stderr (toplevel ethers) =
    match Answers.first_error ethers with None => [] | Some e => [e] end.
Proof.
  assert (Hdup : forall tx,
             NoDup [GetContractFactory "Box"; EstimateGas tx; GetFeeData]).
  { intros tx. repeat (constructor; [cbn; intuition discriminate |]).
    constructor. }
  assert (Hdup2 : forall tx, NoDup [GetContractFactory "Box"; EstimateGas tx]).
  { intros tx. repeat (constructor; [cbn; intuition discriminate |]).
    constructor. }
  assert (Hdup1 : NoDup [GetContractFactory "Box"]).
  { constructor; [intros [] | constructor]. }
  unfold Answers.first_error.
  destruct (getContractFactory ethers "Box") as [Box | e] eqn:HF;
    [ destruct (estimateGas (provider ethers) (getDeployTransaction Box))
        as [G | e] eqn:HG;
      [ destruct (getFeeData (provider ethers)) as [fee | e] eqn:HD;
        [ destruct (formatUnits ethers (gasPrice fee) Units.gwei)
            as [price | e] eqn:HP;
          [ destruct (mul G (gasPrice fee)) as [total | e] eqn:HM;
            [ destruct (formatEther ethers (BigInt total))
                as [cost | e] eqn:HC | ] | ] | ] | ] | ];
    run_main; (split; [repeat split; reflexivity |]);
    (split; [cbn; first [apply Hdup | apply Hdup2 | apply Hdup1]
            | repeat split; reflexivity]).
Qed.

Lemma exit_status_uniform_witness :
  Answers.first_error
    (toolkit (Fixtures.reverting_node (BigInt 20000000000)) Fixtures.factories)
    = Some (Rejected "execution reverted") /\
  exit_code (toplevel (toolkit (Fixtures.reverting_node (BigInt 20000000000))
                               Fixtures.factories)) = Some 1 /\
  stderr (toplevel (toolkit (Fixtures.reverting_node (BigInt 20000000000))
                            Fixtures.factories))
    = [Rejected "execution reverted"] /\
  Answers.first_error
    (toolkit (Fixtures.node 500000 (BigInt 20000000000)) Fixtures.factories)
    = None /\
  exit_code (toplevel (toolkit (Fixtures.node 500000 (BigInt 20000000000))
                               Fixtures.factories)) = Some 0.
Proof.
  destruct (exit_status_uniform
              (toolkit (Fixtures.reverting_node (BigInt 20000000000))
                       Fixtures.factories))
    as (_ & _ & _ & Hexit & Herr).
  destruct (exit_status_uniform
              (toolkit (Fixtures.node 500000 (BigInt 20000000000))
                       Fixtures.factories))
    as (_ & _ & _ & Hexit0 & _).
  split; [reflexivity |]. split; [exact Hexit |]. split; [exact Herr |].
  split; [vm_compute; reflexivity | exact Hexit0].
Defined.

(** ** Display of the cost *)

(** C2, as the code has it: the conversion applied to the total cost
    depends on nothing but the amount and the scale of 18 decimals;
    10^18 smallest units are displayed as "1.0" and 0 as "0.0". *)
Theorem display_scale_conversion :
  (forall (p p' : Provider) (f f' : string -> result ContractFactory)
          (wei : value),
     formatEther (toolkit p f) wei = formatEther (toolkit p' f') wei /\
     formatEther (toolkit p f) wei = Units.fromValue wei 18) /\
  Units.formatEther (BigInt (10 ^ 18)) = Ok "1.0"%string /\
  Units.formatEther (BigInt 0) = Ok "0.0"%string.
Proof.
  split; [intros p p' f f' wei; split; reflexivity |].
  split; vm_compute; reflexivity.
Qed.

(** C2 as stated fails: 10^18 smallest units are not displayed as "1",
    nor 0 as "0". *)
Lemma display_of_one_unit_is_not_1 :
  Units.formatEther (BigInt (10 ^ 18)) <> Ok "1"%string /\
  Units.formatEther (BigInt 0) <> Ok "0"%string.
Proof.
  split; vm_compute; discriminate.
Qed.

(** C5: with an estimate of 500000 units at 20000000000 smallest units
    per unit, the total is 10,000,000,000,000,000 smallest units and the
    cost line shows 0.01. *)
Theorem scenario_half_million_gas (p : Provider)
    (f : string -> result ContractFactory) (Box : ContractFactory)
    (fee : FeeData) :
  f "Box" = Ok Box ->
  estimateGas p (getDeployTransaction Box) = Ok 500000 ->
  getFeeData p = Ok fee ->
  gasPrice fee = BigInt 20000000000 ->
  mul 500000 (gasPrice fee) = Ok 10000000000000000 /\
  Units.formatEther (BigInt 10000000000000000) = Ok "0.01"%string /\
  stdout (toplevel (toolkit p f)) =
    ["Estimated gas: 500000";
     "Current gas price: 20.0 gwei";
     "Estimated deployment cost: 0.01 ETH"]%string /\
  exit_code (toplevel (toolkit p f)) = Some 0.
Proof.
  intros HF HG HD HP.
  assert (HM : mul 500000 (gasPrice fee) = Ok 10000000000000000)
    by (rewrite HP; reflexivity).
  split; [exact HM |]. split; [vm_compute; reflexivity |].
  rewrite (toplevel_completes (toolkit p f) Box 500000 10000000000000000 fee
             "20.0" "0.01" HF HG HD);
    [split; reflexivity | cbn; rewrite HP; vm_compute; reflexivity
    | exact HM | vm_compute; reflexivity].
Qed.

Lemma scenario_half_million_gas_witness :
  Fixtures.factories "Box" = Ok Fixtures.box_factory /\
  stdout (toplevel (toolkit (Fixtures.node 500000 (BigInt 20000000000))
                            Fixtures.factories)) =
    ["Estimated gas: 500000";
     "Current gas price: 20.0 gwei";
     "Estimated deployment cost: 0.01 ETH"]%string /\
  exit_code (toplevel (toolkit (Fixtures.node 500000 (BigInt 20000000000))
                               Fixtures.factories))
    = Some 0.
Proof.
  split; [reflexivity |].
  exact (proj2 (proj2 (scenario_half_million_gas
                         (Fixtures.node 500000 (BigInt 20000000000))
                         Fixtures.factories Fixtures.box_factory
                         (Fixtures.legacy_fees (BigInt 20000000000))
                         eq_refl eq_refl eq_refl eq_refl))).
Defined.

(** C6, as the code has it: with an estimate of 0 the total is 0 whatever
    the price, and, for a price the toolkit can display, the cost line
    shows 0.0. *)
Theorem scenario_zero_gas (p : Provider) (f : string -> result ContractFactory)
    (Box : ContractFactory) (P : bigint) (fee : FeeData) :
  f "Box" = Ok Box ->
  estimateGas p (getDeployTransaction Box) = Ok 0 ->
  getFeeData p = Ok fee ->
  gasPrice fee = BigInt P ->
  mul 0 (gasPrice fee) = Ok 0 /\
  Units.formatEther (BigInt 0) = Ok "0.0"%string /\
  (Units.in_range P = true ->
   stdout (toplevel (toolkit p f)) =
     ["Estimated gas: 0";
      "Current gas price: " ++ Units.toString P 9 ++ " gwei";
      "Estimated deployment cost: 0.0 ETH"]%string /\
   exit_code (toplevel (toolkit p f)) = Some 0).
Proof.
  intros HF HG HD HP.
  assert (HM : mul 0 (gasPrice fee) = Ok 0) by (rewrite HP; reflexivity).
  split; [exact HM |]. split; [vm_compute; reflexivity |].
  intros HR.
  rewrite (toplevel_completes (toolkit p f) Box 0 0 fee
             (Units.toString P 9) "0.0" HF HG HD);
    [split; reflexivity | | exact HM | vm_compute; reflexivity].
  cbn [formatUnits toolkit]. rewrite HP.
  unfold Units.formatUnits, Units.fromValue. rewrite HR. reflexivity.
Qed.

Lemma scenario_zero_gas_witness :
  Units.in_range 20000000000 = true /\
  mul 0 (BigInt 20000000000) = Ok 0 /\
  stdout (toplevel (toolkit (Fixtures.node 0 (BigInt 20000000000))
                            Fixtures.factories)) =
    ["Estimated gas: 0";
     "Current gas price: 20.0 gwei";
     "Estimated deployment cost: 0.0 ETH"]%string.
Proof.
  destruct (scenario_zero_gas (Fixtures.node 0 (BigInt 20000000000))
              Fixtures.factories Fixtures.box_factory 20000000000
              (Fixtures.legacy_fees (BigInt 20000000000))
              eq_refl eq_refl eq_refl eq_refl)
    as (Hmul & _ & Hrun).
  assert (HR : Units.in_range 20000000000 = true) by (vm_compute; reflexivity).
  destruct (Hrun HR) as (Hout & _).
  split; [exact HR |]. split; [exact Hmul |].
  rewrite Hout. vm_compute. reflexivity.
Defined.

(** C6 as stated fails: at a price of 20000000000 the cost line of an
    estimate of 0 shows "0.0", not "0"; at a price of 2^511 there is no
    cost line at all. *)
Lemma zero_gas_cost_line_is_not_0 :
  nth_error (stdout (toplevel (toolkit (Fixtures.node 0 (BigInt 20000000000))
                                       Fixtures.factories))) 2
    = Some "Estimated deployment cost: 0.0 ETH"%string /\
  ~ In "Estimated deployment cost: 0 ETH"%string
       (stdout (toplevel (toolkit (Fixtures.node 0 (BigInt 20000000000))
                                  Fixtures.factories))) /\
  stdout (toplevel (toolkit (Fixtures.node 0 (BigInt (2 ^ 511)))
                            Fixtures.factories))
    = ["Estimated gas: 0"%string].
Proof.
  split; [vm_compute; reflexivity |]. split; [| vm_compute; reflexivity].
  vm_compute. intros [H | [H | [H | []]]]; discriminate H.
Qed.

(* ================================================================== *)
(** * Properties of the Box contract *)
(* ================================================================== *)

Lemma store_accepts (v : Z) (s : Box.state) :
  0 < v ->
  Box.store v s =
    Box.Success tt {| Box.st := {| Box._value := v |};
                      Box.logs := Box.logs s ++ [Box.ValueChanged v] |}.
Proof.
  intros Hv. unfold Box.store.
  destruct (Z.ltb_spec 0 v) as [_ | Hle]; [reflexivity | lia].
Qed.

Lemma store_rejects (v : Z) (s : Box.state) :
  v <= 0 ->
  Box.store v s = Box.Revert "Value must be greater than 0".
Proof.
  intros Hv. unfold Box.store.
  destruct (Z.ltb_spec 0 v) as [Hlt | _]; [lia | reflexivity].
Qed.

(** C8: a call of [store] with a uint256 [v] succeeds exactly when
    [v > 0], and then leaves [v] in storage (and one more event in the
    log); a call with [v = 0] reverts and leaves the state as it was. *)
Theorem store_iff_positive (v : Z) (s : Box.state) :
  Box.is_uint256 v ->
  (Box.succeeded (Box.store v s) = true <-> v > 0) /\
  (v > 0 ->
   Box.commit s (Box.store v s) =
     {| Box.st := {| Box._value := v |};
        Box.logs := Box.logs s ++ [Box.ValueChanged v] |}) /\
  (v = 0 ->
   Box.store v s = Box.Revert "Value must be greater than 0" /\
   Box.commit s (Box.store v s) = s).
Proof.
  intros [Hlo _]. repeat split.
  - intros Hs. destruct (Z.lt_ge_cases 0 v) as [Hlt | Hge]; [lia |].
    rewrite (store_rejects v s) in Hs by lia. discriminate Hs.
  - intros Hv. rewrite (store_accepts v s) by lia. reflexivity.
  - intros Hv. rewrite (store_accepts v s) by lia. reflexivity.
  - apply store_rejects. lia.
  - rewrite (store_rejects v s) by lia. reflexivity.
Qed.

Lemma store_iff_positive_witness :
  Box.is_uint256 33 /\
  Box.succeeded (Box.store 33 Box.deployed) = true /\
  Box.commit Box.deployed (Box.store 33 Box.deployed) =
    {| Box.st := {| Box._value := 33 |};
       Box.logs := [Box.ValueChanged 33] |}.
Proof.
  assert (H33 : Box.is_uint256 33) by (unfold Box.is_uint256; vm_compute; split; discriminate).
  destruct (store_iff_positive 33 Box.deployed H33) as (Hiff & Hok & _).
  split; [exact H33 |].
  split; [apply Hiff; reflexivity | apply Hok; reflexivity].
Defined.

(** The stored value after a sequence of calls. *)
Lemma run_value (cs : list Box.call) (s : Box.state) :
  Box._value (Box.st (Box.run cs s)) =
  Box.last_stored cs (Box._value (Box.st s)).
Proof.
  revert s. induction cs as [| c cs IH]; intros s; [reflexivity |].
  unfold Box.run in *. cbn [fold_left Box.last_stored].
  rewrite IH. destruct c as [v |]; [| reflexivity].
  cbn [Box.transact]. unfold Box.store.
  destruct (0 <? v); reflexivity.
Qed.

(** C9: [retrieve] on a freshly deployed contract returns 0; after a
    successful [store(v)] it returns [v]; after any sequence of calls it
    returns the last value a [store] accepted; it always succeeds and
    leaves the state as it was. *)
Theorem retrieve_last_stored (v : Z) (s : Box.state) (cs : list Box.call) :
  Box.succeeded (Box.store v s) = true ->
  Box.returned (Box.retrieve Box.deployed) = Some 0 /\
  Box.returned (Box.retrieve (Box.commit s (Box.store v s))) = Some v /\
  Box.returned (Box.retrieve (Box.run cs Box.deployed))
    = Some (Box.last_stored cs 0) /\
  (forall s' : Box.state,
     Box.succeeded (Box.retrieve s') = true /\
     Box.commit s' (Box.retrieve s') = s').
Proof.
  intros Hs. split; [reflexivity |]. split.
  - unfold Box.store in *. destruct (0 <? v); [reflexivity | discriminate Hs].
  - split.
    + unfold Box.retrieve. cbn [Box.returned]. rewrite run_value. reflexivity.
    + intros s'. split; reflexivity.
Qed.

Lemma retrieve_last_stored_witness :
  Box.succeeded (Box.store 33 Box.deployed) = true /\
  Box.returned (Box.retrieve (Box.commit Box.deployed (Box.store 33 Box.deployed)))
    = Some 33 /\
  Box.returned
    (Box.retrieve
       (Box.run [Box.Store 33; Box.Retrieve; Box.Store 0; Box.Store 7; Box.Retrieve]
                Box.deployed))
    = Some 7.
Proof.
  destruct (retrieve_last_stored 33 Box.deployed
              [Box.Store 33; Box.Retrieve; Box.Store 0; Box.Store 7; Box.Retrieve]
              eq_refl)
    as (_ & Hv & Hrun & _).
  split; [reflexivity |]. split; [exact Hv | exact Hrun].
Defined.

(* ================================================================== *)
(** * Properties of the configuration *)
(* ================================================================== *)

(** With a credentials file that holds a seed phrase, a run on a local
    network gets to the script. *)
Lemma local_run_with_secrets (ms : list (string * Config.json)) (m : string)
    (nodes : string -> Ethers) (body : Ethers -> trace) :
  Config.member "mnemonic" ms = Some (Config.JString m) ->
  Hardhat.run (Config.Parsed (Config.JObject ms)) "localhost" nodes body
  = body (nodes "localhost").
Proof.
  intros Hm.
  unfold Hardhat.run, Config.load, Config.require_json, Config.destructure,
    Config.property, Hardhat.validate.
  cbn [Config.networks Hardhat.first_invalid Hardhat.valid_profile
       Config.accounts Config.mnemonic].
  rewrite Hm. reflexivity.
Qed.

(** C10: the configuration module reads the credentials file whenever it
    is loaded; when the file is missing or is not JSON, loading throws,
    and a run of any script on any network, local ones included, stops
    there with the error reported and status 1. *)
Theorem missing_secrets_fail_fast (secrets : Config.file) (network : string)
    (nodes : string -> Ethers) (body : Ethers -> trace) :
  secrets = Config.Missing \/ secrets = Config.Malformed ->
  exists e : error,
    Config.load secrets = Throw e /\
    Hardhat.run secrets network nodes body = [Stderr e; Exit 1] /\
    Hardhat.run secrets "localhost" nodes body = [Stderr e; Exit 1] /\
    (e = ModuleNotFound "./secrets.json" \/ e = SyntaxError "./secrets.json").
Proof.
  intros [-> | ->].
  - exists (ModuleNotFound "./secrets.json"). repeat split. left. reflexivity.
  - exists (SyntaxError "./secrets.json"). repeat split. right. reflexivity.
Qed.

Lemma missing_secrets_fail_fast_witness :
  Config.load Config.Missing = Throw (ModuleNotFound "./secrets.json") /\
  Hardhat.estimate_cost Config.Missing "localhost"
    (fun _ => toolkit (Fixtures.node 500000 (BigInt 20000000000)) Fixtures.factories)
  = [Stderr (ModuleNotFound "./secrets.json"); Exit 1].
Proof.
  destruct (missing_secrets_fail_fast Config.Missing "localhost"
              (fun _ => toolkit (Fixtures.node 500000 (BigInt 20000000000))
                                Fixtures.factories)
              toplevel (or_introl eq_refl))
    as (e & Hload & Hrun & _ & _).
  split; [reflexivity |].
  unfold Hardhat.estimate_cost. rewrite Hrun.
  cbv in Hload. injection Hload as <-. reflexivity.
Defined.

(* ================================================================== *)
(** * Further properties of the Box contract *)
(* ================================================================== *)

Lemma transact_logs (c : Box.call) (s : Box.state) :
  Box.logs (Box.transact s c) =
  Box.logs s ++ map Box.ValueChanged (BoxHistory.accepted [c]).
Proof.
  destruct c as [v |]; cbn [Box.transact BoxHistory.accepted].
  - unfold Box.store. destruct (0 <? v); cbn; [reflexivity |].
    symmetry. apply app_nil_r.
  - cbn. symmetry. apply app_nil_r.
Qed.

Lemma accepted_cons (c : Box.call) (cs : list Box.call) :
  BoxHistory.accepted (c :: cs) =
  BoxHistory.accepted [c] ++ BoxHistory.accepted cs.
Proof.
  destruct c as [v |]; cbn; [destruct (0 <? v) |]; reflexivity.
Qed.

Lemma run_logs (cs : list Box.call) (s : Box.state) :
  Box.logs (Box.run cs s) =
  Box.logs s ++ map Box.ValueChanged (BoxHistory.accepted cs).
Proof.
  revert s. induction cs as [| c cs IH]; intros s.
  - cbn. symmetry. apply app_nil_r.
  - unfold Box.run in *. cbn [fold_left]. rewrite IH, transact_logs.
    rewrite (accepted_cons c cs), map_app, app_assoc. reflexivity.
Qed.

Lemma last_cons_default (A : Type) (l : list A) (x d : A) :
  last (x :: l) d = last l x.
Proof.
  revert x d. induction l as [| y l IH]; intros x d; [reflexivity |].
  change (last (x :: y :: l) d) with (last (y :: l) d).
  rewrite (IH y d), (IH y x). reflexivity.
Qed.

Lemma last_stored_accepted (cs : list Box.call) (d : Z) :
  Box.last_stored cs d = last (BoxHistory.accepted cs) d.
Proof.
  revert d. induction cs as [| c cs IH]; intros d; [reflexivity |].
  destruct c as [v |]; cbn [Box.last_stored BoxHistory.accepted].
  - destruct (0 <? v); [| apply IH].
    rewrite IH. symmetry. apply last_cons_default.
  - apply IH.
Qed.

Lemma last_stored_positive (cs : list Box.call) (d : Z) :
  0 < d -> 0 < Box.last_stored cs d.
Proof.
  revert d. induction cs as [| c cs IH]; intros d Hd; [exact Hd |].
  destruct c as [v |]; cbn [Box.last_stored]; [| apply IH; exact Hd].
  apply IH. destruct (Z.ltb_spec 0 v); assumption.
Qed.

(** X1: the event log after any sequence of calls is the log before it
    followed by one [ValueChanged] per accepted [store], in call order:
    a reverted [store] and a [retrieve] log nothing. *)
Theorem log_records_accepted_stores (cs : list Box.call) (s : Box.state) :
  Box.logs (Box.run cs s) =
    Box.logs s ++ map Box.ValueChanged (BoxHistory.accepted cs) /\
  Box.logs (Box.run cs Box.deployed) =
    map Box.ValueChanged (BoxHistory.accepted cs) /\
  List.length (Box.logs (Box.run cs Box.deployed)) =
    List.length (BoxHistory.effective cs).
Proof.
  split; [apply run_logs |].
  assert (H : Box.logs (Box.run cs Box.deployed) =
              map Box.ValueChanged (BoxHistory.accepted cs))
    by (rewrite run_logs; reflexivity).
  split; [exact H |].
  rewrite H, List.length_map. unfold BoxHistory.effective. clear H.
  induction cs as [| c cs IH]; [reflexivity |].
  destruct c as [v |]; cbn [BoxHistory.accepted filter BoxHistory.changes_state].
  - destruct (0 <? v); cbn [List.length]; [f_equal |]; exact IH.
  - exact IH.
Qed.

(** X2: on a contract used since its deployment, the stored value is the
    value of the last event of the log, and 0 exactly while the log is
    empty. *)
Theorem storage_agrees_with_log (cs : list Box.call) :
  Box._value (Box.st (Box.run cs Box.deployed)) =
    BoxHistory.last_logged (Box.logs (Box.run cs Box.deployed)) 0 /\
  (Box._value (Box.st (Box.run cs Box.deployed)) = 0 <->
   Box.logs (Box.run cs Box.deployed) = []).
Proof.
  assert (Hlog : Box.logs (Box.run cs Box.deployed) =
                 map Box.ValueChanged (BoxHistory.accepted cs))
    by (rewrite run_logs; reflexivity).
  assert (Hval : Box._value (Box.st (Box.run cs Box.deployed)) =
                 last (BoxHistory.accepted cs) 0)
    by (rewrite run_value, last_stored_accepted; reflexivity).
  assert (Hpos : Forall (fun v => 0 < v) (BoxHistory.accepted cs)).
  { clear. induction cs as [| c cs IH]; [constructor |].
    destruct c as [v |]; cbn; [| exact IH].
    destruct (Z.ltb_spec 0 v); [constructor; assumption | exact IH]. }
  split.
  - rewrite Hval, Hlog. unfold BoxHistory.last_logged.
    rewrite map_map. cbn [BoxHistory.event_value]. rewrite map_id. reflexivity.
  - rewrite Hval, Hlog. destruct (BoxHistory.accepted cs) as [| v l] eqn:Hacc.
    + split; reflexivity.
    + split; [| discriminate].
      intros H0. exfalso.
      assert (Hin : In (last (v :: l) 0) (v :: l)).
      { clear. revert v. induction l as [| y l IH]; intros v; [left; reflexivity |].
        right. apply (IH y). }
      rewrite Forall_forall in Hpos. specialize (Hpos _ Hin). lia.
Qed.

(** X3: once a positive value is stored, no sequence of calls brings the
    stored value back to 0 or below. *)
Theorem stored_value_stays_positive (cs : list Box.call) (s : Box.state) :
  0 < Box._value (Box.st s) ->
  0 < Box._value (Box.st (Box.run cs s)).
Proof.
  intros Hs. rewrite run_value. apply last_stored_positive. exact Hs.
Qed.

Lemma stored_value_stays_positive_witness :
  0 < Box._value (Box.st (Box.run [Box.Store 33] Box.deployed)) /\
  0 < Box._value
        (Box.st (Box.run [Box.Store 0; Box.Retrieve; Box.Store 5]
                         (Box.run [Box.Store 33] Box.deployed))).
Proof.
  assert (H : 0 < Box._value (Box.st (Box.run [Box.Store 33] Box.deployed)))
    by reflexivity.
  split; [exact H |].
  exact (stored_value_stays_positive
           [Box.Store 0; Box.Retrieve; Box.Store 5]
           (Box.run [Box.Store 33] Box.deployed) H).
Defined.

Lemma last_stored_in_range (cs : list Box.call) (d : Z) :
  Forall BoxHistory.well_typed cs ->
  Box.is_uint256 d ->
  Box.is_uint256 (Box.last_stored cs d).
Proof.
  revert d. induction cs as [| c cs IH]; intros d Hcs Hd; [exact Hd |].
  inversion Hcs as [| c' cs' Hc Hcs']; subst.
  destruct c as [v |]; cbn [Box.last_stored]; apply IH; try assumption.
  destruct (0 <? v); [exact Hc | exact Hd].
Qed.

(** X4: when every [store] argument is a uint256, the stored value of a
    contract that held a uint256 is a uint256 after any sequence of
    calls. *)
Theorem stored_value_is_uint256 (cs : list Box.call) (s : Box.state) :
  Forall BoxHistory.well_typed cs ->
  Box.is_uint256 (Box._value (Box.st s)) ->
  Box.is_uint256 (Box._value (Box.st (Box.run cs s))).
Proof.
  intros Hcs Hs. rewrite run_value. apply last_stored_in_range; assumption.
Qed.

Lemma stored_value_is_uint256_witness :
  Forall BoxHistory.well_typed [Box.Store Box.MAX_UINT256; Box.Store 0; Box.Retrieve] /\
  Box.is_uint256 (Box._value (Box.st Box.deployed)) /\
  Box.is_uint256
    (Box._value
       (Box.st (Box.run [Box.Store Box.MAX_UINT256; Box.Store 0; Box.Retrieve]
                        Box.deployed))).
Proof.
  assert (Hmax : Box.is_uint256 Box.MAX_UINT256)
    by (unfold Box.is_uint256; vm_compute; split; discriminate).
  assert (H0 : Box.is_uint256 0)
    by (unfold Box.is_uint256; vm_compute; split; discriminate).
  assert (Hcs : Forall BoxHistory.well_typed
                  [Box.Store Box.MAX_UINT256; Box.Store 0; Box.Retrieve])
    by (constructor; [exact Hmax | constructor; [exact H0 | constructor; [exact I | constructor]]]).
  split; [exact Hcs |]. split; [exact H0 |].
  exact (stored_value_is_uint256 _ Box.deployed Hcs H0).
Defined.

(** X5: the calls that revert and the reads can be dropped from any
    sequence of calls without changing the state it ends in. *)
Theorem ineffective_calls_leave_no_trace (cs : list Box.call) (s : Box.state) :
  Box.run cs s = Box.run (BoxHistory.effective cs) s.
Proof.
  revert s. unfold Box.run, BoxHistory.effective.
  induction cs as [| c cs IH]; intros s; [reflexivity |].
  cbn [fold_left filter].
  destruct (BoxHistory.changes_state c) eqn:Hc.
  - cbn [fold_left]. apply IH.
  - rewrite <- IH. f_equal.
    destruct c as [v |]; [| reflexivity].
    cbn in Hc. cbn [Box.transact]. unfold Box.store. rewrite Hc. reflexivity.
Qed.

(* ================================================================== *)
(** * Further properties of the estimator *)
(* ================================================================== *)

(** X6: when the contract has not been compiled, the factory lookup
    fails and the run stops there: no request reaches the node, nothing
    is printed, the failure is reported and the status is 1. *)
Theorem missing_artifact_aborts (ethers : Ethers) (e : error) :
  getContractFactory ethers "Box" = Throw e ->
  toplevel ethers = [Await (GetContractFactory "Box"); Stderr e; Exit 1] /\
  requests (toplevel ethers) = [GetContractFactory "Box"] /\
  stdout (toplevel ethers) = [] /\
  exit_code (toplevel ethers) = Some 1.
Proof.
  intros HF. run_main. repeat split; reflexivity.
Qed.

Lemma missing_artifact_aborts_witness :
  toplevel (toolkit (Fixtures.node 500000 (BigInt 20000000000))
                    DeployFixtures.no_artifacts)
  = [Await (GetContractFactory "Box");
     Stderr (Rejected "artifact not found"); Exit 1].
Proof.
  exact (proj1 (missing_artifact_aborts
                  (toolkit (Fixtures.node 500000 (BigInt 20000000000))
                           DeployFixtures.no_artifacts)
                  (Rejected "artifact not found") eq_refl)).
Defined.

(** X7: a run prints at most three lines, and it exits with status 0
    exactly when it has printed all three. *)
Theorem exit_zero_iff_full_report (ethers : Ethers) :
  (List.length (stdout (toplevel ethers)) <= 3)%nat /\
  (exit_code (toplevel ethers) = Some 0 <->
   List.length (stdout (toplevel ethers)) = 3%nat).
Proof.
  estimator_cases ethers; cbn [stdout exit_code List.length app];
    (split; [repeat constructor | split; intros H; try reflexivity; discriminate H]).
Qed.

(** X8: the fee data is requested only after the estimation has
    succeeded and its result has been printed: a run that requests the
    fee data starts with the factory lookup, the estimation request, the
    line of the estimate and the fee request, in this order. *)
Theorem fee_requested_after_estimate (ethers : Ethers) :
  In GetFeeData (requests (toplevel ethers)) ->
  exists (Box : ContractFactory) (G : bigint) (rest : trace),
    getContractFactory ethers "Box" = Ok Box /\
    estimateGas (provider ethers) (getDeployTransaction Box) = Ok G /\
    In ("Estimated gas: " ++ bigint_toString G)%string (stdout (toplevel ethers)) /\
    toplevel ethers =
      [Await (GetContractFactory "Box");
       Await (EstimateGas (getDeployTransaction Box));
       Stdout ("Estimated gas: " ++ bigint_toString G);
       Await GetFeeData] ++ rest.
Proof.
  estimator_cases ethers; cbn [requests app]; intros Hin;
    try (exists Box, G; eexists; split; [reflexivity |];
         split; [assumption |];
         split; [left; reflexivity | reflexivity]).
  - destruct Hin as [H | [H | []]]; discriminate H.
  - destruct Hin as [H | []]; discriminate H.
Qed.

Lemma fee_requested_after_estimate_witness :
  In GetFeeData
     (requests (toplevel (toolkit (Fixtures.feeless_node 500000)
                                  Fixtures.factories))) /\
  In "Estimated gas: 500000"%string
     (stdout (toplevel (toolkit (Fixtures.feeless_node 500000)
                                Fixtures.factories))) /\
  firstn 4 (toplevel (toolkit (Fixtures.feeless_node 500000) Fixtures.factories))
  = [Await (GetContractFactory "Box");
     Await (EstimateGas (getDeployTransaction Fixtures.box_factory));
     Stdout "Estimated gas: 500000";
     Await GetFeeData].
Proof.
  assert (Hreq : In GetFeeData
                   (requests (toplevel (toolkit (Fixtures.feeless_node 500000)
                                                Fixtures.factories))))
    by (vm_compute; right; right; left; reflexivity).
  split; [exact Hreq |].
  destruct (fee_requested_after_estimate _ Hreq)
    as (Box & G & rest & HF & HG & Hin & Htrace).
  cbn in HG. injection HG as <-.
  cbn in HF. injection HF as <-.
  split; [exact Hin |].
  rewrite Htrace. reflexivity.
Defined.

(** X9: a [null] price is never taken for a price of zero: whatever the
    formatting functions do with it, the run ends with status 1 and
    prints no cost line. *)
Theorem null_price_is_not_zero (ethers : Ethers) (Box : ContractFactory)
    (G : bigint) (fee : FeeData) :
  getContractFactory ethers "Box" = Ok Box ->
  estimateGas (provider ethers) (getDeployTransaction Box) = Ok G ->
  getFeeData (provider ethers) = Ok fee ->
  gasPrice fee = Null ->
  exit_code (toplevel ethers) = Some 1 /\
  (forall cost : string,
     ~ In ("Estimated deployment cost: " ++ cost ++ " ETH")%string
          (stdout (toplevel ethers))).
Proof.
  intros HF HG HD HN.
  assert (HM : mul G (gasPrice fee) =
               Throw (TypeError "Cannot mix BigInt and other types, use explicit conversions"))
    by (rewrite HN; reflexivity).
  clear HN.
  destruct (formatUnits ethers (gasPrice fee) Units.gwei) as [price | e] eqn:HP;
    run_main; (split; [reflexivity |]); intros cost; cbn [stdout app].
  - intros [H | [H | []]]; cbn in H; discriminate H.
  - intros [H | []]; cbn in H; discriminate H.
Qed.

Lemma null_price_is_not_zero_witness :
  exit_code (toplevel (toolkit (Fixtures.node 500000 Null) Fixtures.factories))
    = Some 1 /\
  ~ In "Estimated deployment cost: 0.0 ETH"%string
       (stdout (toplevel (toolkit (Fixtures.node 500000 Null) Fixtures.factories))).
Proof.
  destruct (null_price_is_not_zero
              (toolkit (Fixtures.node 500000 Null) Fixtures.factories)
              Fixtures.box_factory 500000 (Fixtures.legacy_fees Null)
              eq_refl eq_refl eq_refl eq_refl)
    as (Hexit & Hnone).
  split; [exact Hexit | exact (Hnone "0.0"%string)].
Defined.

(** X10: of the fee data only the legacy price is read: two nodes that
    agree on it give the same run, whatever their fee-market fields. *)
Theorem fee_market_fields_ignored
    (est : promise transaction -> result bigint)
    (f : string -> result ContractFactory)
    (fu : value -> Units.unit_name -> result string)
    (fe : value -> result string) (fee fee' : FeeData) :
  gasPrice fee = gasPrice fee' ->
  toplevel {| provider := {| estimateGas := est; getFeeData := Ok fee |};
              getContractFactory := f; formatUnits := fu; formatEther := fe |}
  = toplevel {| provider := {| estimateGas := est; getFeeData := Ok fee' |};
                getContractFactory := f; formatUnits := fu; formatEther := fe |}.
Proof.
  intros Hprice.
  cbv beta iota zeta delta
    [toplevel main bind await eval console_log provider getContractFactory
     formatUnits formatEther estimateGas getFeeData].
  destruct (f "Box") as [Box | e]; [| reflexivity].
  destruct (est (getDeployTransaction Box)) as [G | e]; [| reflexivity].
  rewrite Hprice. reflexivity.
Qed.

Lemma fee_market_fields_ignored_witness :
  gasPrice (Fixtures.legacy_fees (BigInt 20000000000))
    = gasPrice (DeployFixtures.market_fees (BigInt 20000000000)) /\
  toplevel (toolkit {| estimateGas := fun _ => Ok 500000;
                       getFeeData := Ok (Fixtures.legacy_fees (BigInt 20000000000)) |}
                    Fixtures.factories)
  = toplevel (toolkit {| estimateGas := fun _ => Ok 500000;
                         getFeeData := Ok (DeployFixtures.market_fees (BigInt 20000000000)) |}
                      Fixtures.factories).
Proof.
  split; [reflexivity |].
  exact (fee_market_fields_ignored (fun _ => Ok 500000) Fixtures.factories
           Units.formatUnits Units.formatEther
           (Fixtures.legacy_fees (BigInt 20000000000))
           (DeployFixtures.market_fees (BigInt 20000000000)) eq_refl).
Defined.

(* ================================================================== *)
(** * Further properties of the configuration *)
(* ================================================================== *)

(** X11: loading the configuration succeeds exactly when the credentials
    file exists and parses to a JSON value other than [null]; neither of
    the two keys has to be present. *)
Theorem load_succeeds_iff (f : Config.file) :
  (exists cfg : Config.HardhatUserConfig, Config.load f = Ok cfg) <->
  (exists j : Config.json, f = Config.Parsed j /\ j <> Config.JNull).
Proof.
  split.
  - intros (cfg & Hload). destruct f as [| | j]; try discriminate Hload.
    exists j. split; [reflexivity |]. intros ->. discriminate Hload.
  - intros (j & -> & Hj). destruct j; try (eexists; reflexivity).
    contradiction Hj. reflexivity.
Qed.

(** X12: with a credentials file that loads, the runtime refuses the
    configuration, on every network and before the script starts, unless
    the file's mnemonic is a string; when it is, the script runs on the
    two built-in networks and on sepolia, the one network the
    configuration declares, and any other network name is refused before
    the script starts. *)
Theorem declared_networks (j : Config.json) (network : string)
    (nodes : string -> Ethers) (body : Ethers -> trace) :
  j <> Config.JNull ->
  Hardhat.run (Config.Parsed j) network nodes body =
    match Config.property j "mnemonic" with
    | Some (Config.JString _) =>
        if (String.eqb network "hardhat" || String.eqb network "localhost"
            || String.eqb network "sepolia")%bool
        then body (nodes network)
        else [Stderr (UnknownNetwork network); Exit 1]
    | _ => [Stderr (InvalidConfig "HardhatConfig.networks.sepolia"); Exit 1]
    end.
Proof.
  intros Hj.
  assert (Hload : exists cfg,
             Config.load (Config.Parsed j) = Ok cfg /\
             map fst (Config.networks cfg) = ["sepolia"%string] /\
             Hardhat.validate cfg =
               match Config.property j "mnemonic" with
               | Some (Config.JString _) => Ok tt
               | _ => Throw (InvalidConfig "HardhatConfig.networks.sepolia")
               end).
  { destruct j; try (eexists; split; [reflexivity |]; split; reflexivity).
    - contradiction Hj. reflexivity.
    - eexists. split; [reflexivity |]. split; [reflexivity |].
      unfold Hardhat.validate.
      cbn [Config.networks Hardhat.first_invalid Hardhat.valid_profile
           Config.accounts Config.mnemonic].
      destruct (Config.property (Config.JObject members) "mnemonic")
        as [[] |]; reflexivity. }
  destruct Hload as (cfg & Hcfg & Hnets & Hvalid).
  unfold Hardhat.run. rewrite Hcfg, Hvalid.
  destruct (Config.property j "mnemonic") as [[] |]; try reflexivity.
  unfold Hardhat.network_known, Hardhat.builtin_networks. rewrite Hnets.
  cbn [app existsb]. rewrite orb_false_r, orb_assoc. reflexivity.
Qed.

Lemma declared_networks_witness :
  Answers.workshop_secrets <> Config.JNull /\
  Hardhat.estimate_cost (Config.Parsed Answers.workshop_secrets) "mainnet"
    (fun _ => toolkit (Fixtures.node 500000 (BigInt 20000000000)) Fixtures.factories)
  = [Stderr (UnknownNetwork "mainnet"); Exit 1] /\
  Hardhat.estimate_cost (Config.Parsed Answers.workshop_secrets) "sepolia"
    (fun _ => toolkit (Fixtures.node 500000 (BigInt 20000000000)) Fixtures.factories)
  = toplevel (toolkit (Fixtures.node 500000 (BigInt 20000000000)) Fixtures.factories) /\
  Hardhat.estimate_cost (Config.Parsed Answers.keyless_secrets) "sepolia"
    (fun _ => toolkit (Fixtures.node 500000 (BigInt 20000000000)) Fixtures.factories)
  = [Stderr (InvalidConfig "HardhatConfig.networks.sepolia"); Exit 1].
Proof.
  assert (Hj : Answers.workshop_secrets <> Config.JNull) by discriminate.
  assert (Hk : Answers.keyless_secrets <> Config.JNull) by discriminate.
  split; [exact Hj |]. unfold Hardhat.estimate_cost. split; [| split].
  - rewrite (declared_networks _ "mainnet" _ toplevel Hj). reflexivity.
  - rewrite (declared_networks _ "sepolia" _ toplevel Hj). reflexivity.
  - rewrite (declared_networks _ "sepolia" _ toplevel Hk). reflexivity.
Defined.

(* ================================================================== *)
(** * Properties of the deployment script *)
(* ================================================================== *)

(** X13: when every call answers, the deployment script announces the
    deployment, sends it, waits for its inclusion, asks for the address
    and prints it, in this order, then exits with status 0. *)
Theorem deployment_completes (ethers : Deploy.Ethers)
    (Box : ContractFactory) (box box' : Deploy.BaseContract) (address : string) :
  Deploy.getContractFactory ethers "Box" = Ok Box ->
  Deploy.deploy ethers Box = Ok box ->
  Deploy.waitForDeployment ethers box = Ok box' ->
  Deploy.getAddress ethers box = Ok address ->
  Deploy.toplevel ethers =
    [Deploy.Await (Deploy.GetContractFactory "Box");
     Deploy.Stdout "Deploying Box...";
     Deploy.Await (Deploy.SendDeployment Box);
     Deploy.Await (Deploy.WaitForDeployment box);
     Deploy.Await (Deploy.GetAddress box);
     Deploy.Stdout ("Box deployed to: " ++ address);
     Deploy.Exit 0].
Proof.
  intros HF HD HW HA. run_deploy. reflexivity.
Qed.

Lemma deployment_completes_witness :
  Deploy.stdout (Deploy.toplevel DeployFixtures.local_node) =
    ["Deploying Box...";
     "Box deployed to: 0x5fbdb2315678afecb367f032d93f642f64180aa3"]%string /\
  Deploy.exit_code (Deploy.toplevel DeployFixtures.local_node) = Some 0.
Proof.
  rewrite (deployment_completes DeployFixtures.local_node Fixtures.box_factory
             DeployFixtures.box_handle DeployFixtures.box_handle
             "0x5fbdb2315678afecb367f032d93f642f64180aa3"
             eq_refl eq_refl eq_refl eq_refl).
  split; reflexivity.
Defined.


(** X15: when the contract has not been compiled, the deployment script
    stops at the factory lookup: it prints nothing, not even the
    announcement, sends no deployment, and exits with status 1. *)
Theorem deployment_needs_artifact (ethers : Deploy.Ethers) (e : error) :
  Deploy.getContractFactory ethers "Box" = Throw e ->
  Deploy.toplevel ethers =
    [Deploy.Await (Deploy.GetContractFactory "Box");
     Deploy.Stderr e; Deploy.Exit 1] /\
  Deploy.stdout (Deploy.toplevel ethers) = [] /\
  filter Deploy.is_deployment (Deploy.requests (Deploy.toplevel ethers)) = [].
Proof.
  intros HF. run_deploy. repeat split; reflexivity.
Qed.

Lemma deployment_needs_artifact_witness :
  Deploy.toplevel DeployFixtures.uncompiled =
    [Deploy.Await (Deploy.GetContractFactory "Box");
     Deploy.Stderr (Rejected "artifact not found"); Deploy.Exit 1].
Proof.
  exact (proj1 (deployment_needs_artifact DeployFixtures.uncompiled
                  (Rejected "artifact not found") eq_refl)).
Defined.

(** X16: once the factory is found, a run that fails has printed the
    announcement and nothing else: no address is shown for a deployment
    that was refused, dropped, or whose address could not be read. *)
Theorem failed_deployment_shows_no_address (ethers : Deploy.Ethers)
    (Box : ContractFactory) :
  Deploy.getContractFactory ethers "Box" = Ok Box ->
  Deploy.exit_code (Deploy.toplevel ethers) = Some 1 ->
  Deploy.stdout (Deploy.toplevel ethers) = ["Deploying Box..."%string].
Proof.
  intros HF. revert HF.
  deploy_cases ethers; cbn [Deploy.stdout Deploy.exit_code app];
    intros HF Hexit; try reflexivity; discriminate.
Qed.

Lemma failed_deployment_shows_no_address_witness :
  Deploy.exit_code (Deploy.toplevel DeployFixtures.stalled_node) = Some 1 /\
  Deploy.stdout (Deploy.toplevel DeployFixtures.stalled_node)
    = ["Deploying Box..."%string] /\
  Deploy.stdout (Deploy.toplevel DeployFixtures.broke_node)
    = ["Deploying Box..."%string].
Proof.
  split; [reflexivity |]. split.
  - exact (failed_deployment_shows_no_address DeployFixtures.stalled_node
             Fixtures.box_factory eq_refl eq_refl).
  - exact (failed_deployment_shows_no_address DeployFixtures.broke_node
             Fixtures.box_factory eq_refl eq_refl).
Defined.

(** X17: the address of a contract is asked for only after the node has
    confirmed the inclusion of its deployment. *)
Theorem address_read_after_inclusion (ethers : Deploy.Ethers)
    (box : Deploy.BaseContract) :
  In (Deploy.GetAddress box) (Deploy.requests (Deploy.toplevel ethers)) ->
  exists (Box : ContractFactory) (box' : Deploy.BaseContract),
    Deploy.getContractFactory ethers "Box" = Ok Box /\
    Deploy.deploy ethers Box = Ok box /\
    Deploy.waitForDeployment ethers box = Ok box'.
Proof.
  deploy_cases ethers; cbn [Deploy.requests app]; intros Hin;
    repeat (destruct Hin as [Hin | Hin]; [try discriminate Hin |]);
    try contradiction;
    injection Hin as <-; eexists _, _; repeat split; eassumption.
Qed.

Lemma address_read_after_inclusion_witness :
  In (Deploy.GetAddress DeployFixtures.box_handle)
     (Deploy.requests (Deploy.toplevel DeployFixtures.local_node)) /\
  exists box' : Deploy.BaseContract,
    Deploy.waitForDeployment DeployFixtures.local_node DeployFixtures.box_handle
    = Ok box'.
Proof.
  assert (Hin : In (Deploy.GetAddress DeployFixtures.box_handle)
                   (Deploy.requests (Deploy.toplevel DeployFixtures.local_node)))
    by (vm_compute; do 3 right; left; reflexivity).
  split; [exact Hin |].
  destruct (address_read_after_inclusion _ _ Hin) as (Box & box' & _ & _ & HW).
  exists box'. exact HW.
Defined.

(** X18: a run of the deployment script sends at most one deployment,
    and when it sends one it has printed the announcement first. *)
Theorem at_most_one_deployment (ethers : Deploy.Ethers) :
  (List.length (filter Deploy.is_deployment
                       (Deploy.requests (Deploy.toplevel ethers))) <= 1)%nat /\
  (filter Deploy.is_deployment (Deploy.requests (Deploy.toplevel ethers)) = [] \/
   exists (t t' : Deploy.trace) (Box : ContractFactory),
     Deploy.toplevel ethers =
       t ++ Deploy.Stdout "Deploying Box..."
         :: Deploy.Await (Deploy.SendDeployment Box) :: t').
Proof.
  deploy_cases ethers;
    cbn [Deploy.requests app filter Deploy.is_deployment List.length];
    (split; [repeat constructor |]);
    first [ left; reflexivity
          | right;
            exists [Deploy.Await (Deploy.GetContractFactory "Box")];
            eexists _, _; reflexivity ].
Qed.
